(** * SchemaProcessor: the upload form and its submission controller

    A shallow embedding of [src/frontend.js] (the React component
    [SchemaProcessor], whose [processSchema] simulates the backend with a
    timer) and of the second [processSchema] of the repository (the variant
    that posts the form to [/api/process-schema]).

    Conventions.
    - A JavaScript value is a term of [value].  The property list of an
      object holds each key once, in the order in which the engine
      enumerates the object's own keys.
    - A string is well-formed Unicode text, kept as its UTF-8 bytes.
    - A handler is a computation in the monad [M]: it appends to a trace of
      [event]s (calls of the state setters, timers, requests, DOM calls) and
      completes normally or by throwing.  The cells of the component are
      updated by replaying the trace with [run]; a handler reads the cells
      of the render it was created in and runs to its end before the next
      one starts.
    - What the outside world answers (how the request settles, which URL the
      browser hands out, how the engine prints a number) is an argument. *)

From Stdlib Require Import String Ascii List NArith Bool Floats Lia.
Import ListNotations.
Open Scope string_scope.
Set Warnings "-register-all,-inexact-float".

(* ================================================================= *)
(** ** JavaScript values *)

Module JS.

Inductive value : Type :=
| VUndefined
| VNull
| VBool (b : bool)
| VNum (x : float)
| VStr (s : string)
| VArr (items : list value)
| VObj (props : list (string * value)).

(** ToBoolean. *)
Definition truthy (v : value) : bool :=
  match v with
  | VUndefined | VNull => false
  | VBool b => b
  | VNum x => negb (PrimFloat.is_zero x || PrimFloat.is_nan x)
  | VStr s => negb (String.eqb s "")
  | VArr _ | VObj _ => true
  end.

(** An [Error] object, as far as the component looks at it. *)
Record Error : Type := mkError { err_name : string; message : string }.

(** How a promise settles. *)
Inductive settled (A : Type) : Type :=
| Fulfilled (a : A)
| Rejected (e : Error).
Arguments Fulfilled {A} a.
Arguments Rejected {A} e.

Fixpoint assoc (k : string) (props : list (string * value)) : option value :=
  match props with
  | [] => None
  | (k', v) :: rest => if String.eqb k k' then Some v else assoc k rest
  end.

(** [v.k] for a key [k] that no built-in prototype defines ([success],
    [result], [error], ...): an own property of an object, [undefined] on
    any other value that can be read from, and [None] where the engine
    throws a TypeError (reading from [null] or [undefined]). *)
Definition get (v : value) (k : string) : option value :=
  match v with
  | VUndefined | VNull => None
  | VObj props =>
      match assoc k props with
      | Some x => Some x
      | None => Some VUndefined
      end
  | _ => Some VUndefined
  end.

(* ----------------------------------------------------------------- *)
(** *** String.prototype.trim *)

Definition byte (n : N) : ascii := ascii_of_N n.

(** WhiteSpace and LineTerminator code points with a one-byte encoding:
    TAB, LF, VT, FF, CR, SP. *)
Definition is_ws1 (a : ascii) : bool :=
  let n := N_of_ascii a in
  ((9 <=? n) && (n <=? 13) || (n =? 32))%N.

(** U+00A0, encoded C2 A0. *)
Definition is_ws2 (a b : ascii) : bool :=
  ((N_of_ascii a =? 194) && (N_of_ascii b =? 160))%N.

(** The three-byte ones: U+1680 (E1 9A 80), U+2000..U+200A (E2 80 80..8A),
    U+2028, U+2029 (E2 80 A8, A9), U+202F (E2 80 AF), U+205F (E2 81 9F),
    U+3000 (E3 80 80) and U+FEFF (EF BB BF). *)
Definition is_ws3 (a b c : ascii) : bool :=
  let x := N_of_ascii a in
  let y := N_of_ascii b in
  let z := N_of_ascii c in
  ((x =? 225) && (y =? 154) && (z =? 128)
   || (x =? 226) && (y =? 128)
      && ((128 <=? z) && (z <=? 138) || (z =? 168) || (z =? 169) || (z =? 175))
   || (x =? 226) && (y =? 129) && (z =? 159)
   || (x =? 227) && (y =? 128) && (z =? 128)
   || (x =? 239) && (y =? 187) && (z =? 191))%N.

(** Drops the white space at the head of [l].  With [backwards] the list is
    a reversed string, so the bytes of a code point arrive last byte
    first. *)
Fixpoint strip (backwards : bool) (l : list ascii) : list ascii :=
  match l with
  | [] => []
  | a :: l1 =>
      if is_ws1 a then strip backwards l1
      else
        match l1 with
        | [] => l
        | b :: l2 =>
            if (if backwards then is_ws2 b a else is_ws2 a b)
            then strip backwards l2
            else
              match l2 with
              | [] => l
              | c :: l3 =>
                  if (if backwards then is_ws3 c b a else is_ws3 a b c)
                  then strip backwards l3
                  else l
              end
        end
  end.

Definition trim (s : string) : string :=
  string_of_list_ascii
    (rev (strip true (rev (strip false (list_ascii_of_string s))))).

(* ----------------------------------------------------------------- *)
(** *** JSON.stringify (value, null, 2) *)

Definition LF : string := String (byte 10) "".
Definition DQUOTE : string := String (byte 34) "".
Definition BACKSLASH : string := String (byte 92) "".

Definition hex_digit (n : N) : string :=
  String (byte (if (n <? 10)%N then 48 + n else 87 + n)%N) "".

(** One code unit of QuoteJSONString. *)
Definition quote_char (a : ascii) : string :=
  let n := N_of_ascii a in
  if (n =? 8)%N then BACKSLASH ++ "b"
  else if (n =? 9)%N then BACKSLASH ++ "t"
  else if (n =? 10)%N then BACKSLASH ++ "n"
  else if (n =? 12)%N then BACKSLASH ++ "f"
  else if (n =? 13)%N then BACKSLASH ++ "r"
  else if (n =? 34)%N then BACKSLASH ++ DQUOTE
  else if (n =? 92)%N then BACKSLASH ++ BACKSLASH
  else if (n <? 32)%N
       then BACKSLASH ++ "u00" ++ hex_digit (n / 16) ++ hex_digit (n mod 16)
  else String a "".

Fixpoint quote_chars (s : string) : string :=
  match s with
  | EmptyString => ""
  | String a rest => quote_char a ++ quote_chars rest
  end.

Definition QuoteJSONString (s : string) : string :=
  DQUOTE ++ quote_chars s ++ DQUOTE.

Fixpoint join (sep : string) (parts : list string) : string :=
  match parts with
  | [] => ""
  | [p] => p
  | p :: rest => p ++ sep ++ join sep rest
  end.

Definition is_finite (x : float) : bool :=
  negb (PrimFloat.is_nan x || PrimFloat.is_infinity x).

(** What differs from one engine to the next: Number::toString, and the
    message of the TypeError raised when property [k] is read from [v]
    ([v] being [null] or [undefined]). *)
Record Engine : Type := mkEngine {
  NumberToString : float -> string;
  CannotRead : value -> string -> string
}.

Section Stringify.

Variable engine : Engine.

Definition gap : string := "  ".

(** SerializeJSONProperty with the gap of two spaces; [None] is the
    [undefined] that a property holder drops. *)
Fixpoint serialize (indent : string) (v : value) : option string :=
  match v with
  | VUndefined => None
  | VNull => Some "null"
  | VBool true => Some "true"
  | VBool false => Some "false"
  | VNum x => Some (if is_finite x then NumberToString engine x else "null")
  | VStr s => Some (QuoteJSONString s)
  | VArr items =>
      let stepback := indent in
      let indent := indent ++ gap in
      let partial :=
        map (fun x => match serialize indent x with
                      | Some str => str
                      | None => "null"
                      end) items in
      match partial with
      | [] => Some "[]"
      | _ => Some ("[" ++ LF ++ indent
                     ++ join ("," ++ LF ++ indent) partial
                     ++ LF ++ stepback ++ "]")
      end
  | VObj props =>
      let stepback := indent in
      let indent := indent ++ gap in
      let partial :=
        flat_map (fun kv => match serialize indent (snd kv) with
                            | Some str =>
                                [QuoteJSONString (fst kv) ++ ": " ++ str]
                            | None => []
                            end) props in
      match partial with
      | [] => Some "{}"
      | _ => Some ("{" ++ LF ++ indent
                     ++ join ("," ++ LF ++ indent) partial
                     ++ LF ++ stepback ++ "}")
      end
  end.

Definition JSON_stringify (v : value) : option string := serialize "" v.

End Stringify.

End JS.


Import JS.

(* ================================================================= *)
(** ** The component: cells, events, handlers *)

(** A [File] picked in the file input. *)
Record File : Type := mkFile { name : string; contents : string }.

(** The seven [useState] cells of [SchemaProcessor]. *)
Record state : Type := mkState {
  inputFile : option File;     (* null or a File *)
  query : string;
  outputFormat : string;
  threshold : float;
  result : value;
  error : value;
  loading : bool
}.

(** The first render: the arguments of the [useState] calls. *)
Definition initial : state :=
  {| inputFile := None; query := ""; outputFormat := "json";
     threshold := 0.1%float; result := VNull; error := VNull;
     loading := false |}.

(** A value appended to a [FormData]; the browser sends every entry that is
    not a file as its string. *)
Inductive form_value : Type :=
| FormFile (f : File)
| FormText (s : string)
| FormNumber (x : float).

Definition FormData : Type := list (string * form_value).

Definition append (fd : FormData) (k : string) (v : form_value) : FormData :=
  (fd ++ [(k, v)])%list.

Record RequestInit : Type := mkInit { method : string; body : FormData }.

Record Blob : Type := mkBlob { parts : list string; type : string }.

(** The anchor element built by [downloadResult]. *)
Record Anchor : Type := mkAnchor { href : string; download : string }.

Inductive event : Type :=
| SetInputFile (f : File)
| SetQuery (s : string)
| SetOutputFormat (s : string)
| SetThreshold (x : float)
| SetError (v : value)
| SetLoading (b : bool)
| SetResult (v : value)
| SetTimeout (ms : N)
| Fetch (url : string) (init : RequestInit)
| NewBlob (b : Blob)
| CreateObjectURL (b : Blob) (url : string)
| CreateElement (tag : string)
| AppendChild (a : Anchor)
| Click (a : Anchor)
| RemoveChild (a : Anchor)
| RevokeObjectURL (url : string).

(** How a computation ends. *)
Inductive completion (A : Type) : Type :=
| Normal (a : A)
| Throw (e : Error).
Arguments Normal {A} a.
Arguments Throw {A} e.

Definition M (A : Type) : Type := (list event * completion A)%type.

Definition ret {A} (a : A) : M A := ([], Normal a).

Definition bind {A B} (m : M A) (k : A -> M B) : M B :=
  match m with
  | (t1, Normal a) => let (t2, c) := k a in ((t1 ++ t2)%list, c)
  | (t1, Throw e) => (t1, Throw e)
  end.

Definition emit (ev : event) : M unit := ([ev], Normal tt).

Definition throw {A} (e : Error) : M A := ([], Throw e).

(** [await p]: the value of a fulfilled promise, the reason of a rejected
    one thrown. *)
Definition await {A} (p : settled A) : M A :=
  match p with
  | Fulfilled a => ret a
  | Rejected e => throw e
  end.

(** [try { body } catch (err) { handler err } finally { fin }]. *)
Definition try_catch_finally {A} (body : M A) (handler : Error -> M A)
    (fin : M unit) : M A :=
  let (t1, c1) := body in
  let (t2, c2) := match c1 with
                  | Normal a => ([], Normal a)
                  | Throw e => handler e
                  end in
  let (t3, c3) := fin in
  ((t1 ++ t2 ++ t3)%list,
   match c3 with
   | Normal _ => c2
   | Throw e => Throw e
   end).

Declare Scope js_scope.
Delimit Scope js_scope with js.
Notation "x <- m ;; k" := (bind m (fun x => k))
  (at level 61, m at next level, right associativity) : js_scope.
Notation "m ;; k" := (bind m (fun _ => k))
  (at level 61, right associativity) : js_scope.
Open Scope js_scope.

(** The trace of a computation and the way it ended. *)
Definition trace {A} (m : M A) : list event := fst m.
Definition ending {A} (m : M A) : completion A := snd m.

(** What one event does to the cells. *)
Definition apply (st : state) (ev : event) : state :=
  match ev with
  | SetInputFile f =>
      mkState (Some f) (query st) (outputFormat st) (threshold st)
              (result st) (error st) (loading st)
  | SetQuery s =>
      mkState (inputFile st) s (outputFormat st) (threshold st)
              (result st) (error st) (loading st)
  | SetOutputFormat s =>
      mkState (inputFile st) (query st) s (threshold st)
              (result st) (error st) (loading st)
  | SetThreshold x =>
      mkState (inputFile st) (query st) (outputFormat st) x
              (result st) (error st) (loading st)
  | SetError v =>
      mkState (inputFile st) (query st) (outputFormat st) (threshold st)
              (result st) v (loading st)
  | SetLoading b =>
      mkState (inputFile st) (query st) (outputFormat st) (threshold st)
              (result st) (error st) b
  | SetResult v =>
      mkState (inputFile st) (query st) (outputFormat st) (threshold st)
              v (error st) (loading st)
  | _ => st
  end.

(** The cells once the handler has run to its end from [st]. *)
Definition run {A} (st : state) (m : M A) : state :=
  fold_left apply (trace m) st.

(* ----------------------------------------------------------------- *)
(** *** Handlers shared by the two variants *)

Definition isSome {A} (o : option A) : bool :=
  match o with Some _ => true | None => false end.

(** [!inputFile || !query.trim()], the guard of [processSchema] and the last
    two disjuncts of the button's [disabled]. *)
Definition incomplete (st : state) : bool :=
  negb (isSome (inputFile st)) || negb (truthy (VStr (trim (query st)))).

Definition validation_message : string :=
  "Please provide both a schema file and a query".

Definition error_prefix : string := "Error processing schema: ".

(** [handleFileChange], given [event.target.files]. *)
Definition handleFileChange (files : list File) : M unit :=
  let file := nth_error files 0 in
  match file with
  | Some f => emit (SetInputFile f) ;; emit (SetError VNull)
  | None => ret tt
  end.

(** [disabled] of the Process button. *)
Definition disabled (st : state) : bool :=
  loading st || incomplete st.

(* ================================================================= *)
(** ** [processSchema] of src/frontend.js: the simulated backend *)

Module Mock.

Definition column (n t d : string) : value :=
  VObj [("name", VStr n); ("type", VStr t); ("description", VStr d)].

Definition mockResult : value :=
  VObj
    [("orders",
      VObj [("columns",
             VArr [column "order_id" "integer" "Unique order identifier";
                   column "user_id" "integer" "Reference to users table"]);
            ("relevance_score", VNum 0.85%float)]);
     ("users",
      VObj [("columns",
             VArr [column "user_id" "integer" "Unique user identifier";
                   column "username" "string" "User's display name"]);
            ("relevance_score", VNum 0.65%float)])].

(** The [try] block. *)
Definition attempt : M unit :=
  emit (SetTimeout 1500) ;;
  await (Fulfilled tt) ;;
  emit (SetResult mockResult).

Definition processSchema (st : state) : M unit :=
  if incomplete st then
    emit (SetError (VStr validation_message))
  else
    emit (SetLoading true) ;;
    emit (SetError VNull) ;;
    try_catch_finally
      attempt
      (fun err => emit (SetError (VStr (error_prefix ++ message err))))
      (emit (SetLoading false)).

End Mock.

(* ================================================================= *)
(** ** [processSchema] posting to /api/process-schema *)

Module Api.

(** A [Response], as far as it is used: what [response.json()] settles
    to. *)
Record Response : Type := mkResponse { json : settled value }.

Section WithEngine.

Variable engine : Engine.

(** [v.k], throwing where the engine does. *)
Definition read (v : value) (k : string) : M value :=
  match get v k with
  | Some x => ret x
  | None => throw (mkError "TypeError" (CannotRead engine v k))
  end.

(** The [try] block; [reply] is how the promise of [fetch] settles. *)
Definition attempt (reply : settled Response) (st : state) : M unit :=
  let formData : FormData := [] in
  let formData :=
    append formData "file"
           match inputFile st with
           | Some f => FormFile f
           | None => FormText "null"
           end in
  let formData := append formData "query" (FormText (query st)) in
  let formData :=
    append formData "output_format" (FormText (outputFormat st)) in
  let formData :=
    append formData "threshold" (FormNumber (threshold st)) in
  emit (Fetch "/api/process-schema" (mkInit "POST" formData)) ;;
  response <- await reply ;;
  data <- await (json response) ;;
  success <- read data "success" ;;
  if truthy success then
    r <- read data "result" ;;
    emit (SetResult r)
  else
    e <- read data "error" ;;
    emit (SetError e).

Definition processSchema (reply : settled Response) (st : state) : M unit :=
  if incomplete st then
    emit (SetError (VStr validation_message))
  else
    emit (SetLoading true) ;;
    emit (SetError VNull) ;;
    try_catch_finally
      (attempt reply st)
      (fun err => emit (SetError (VStr (error_prefix ++ message err))))
      (emit (SetLoading false)).

End WithEngine.

End Api.

(* ================================================================= *)
(** ** What is drawn, and the download *)

Module View.

Definition yaml_placeholder : string := "# YAML output would be here".

(** What the component puts where the results go. *)
Inductive node : Type :=
| Empty
| TextNode (s : string)
| ResultsCard (pre : option string).

Section WithEngine.

Variable engine : Engine.

(** [outputFormat === 'json' ? JSON.stringify(result, null, 2) : "# YAML
    output would be here"], the expression of the [<pre>] block and of
    [content] in [downloadResult]. *)
Definition content (st : state) : option string :=
  if String.eqb (outputFormat st) "json"
  then JSON_stringify engine (result st)
  else Some yaml_placeholder.

(** A falsy value as a React child: a number is drawn as its numeral,
    [null], [undefined], booleans and the empty string as nothing. *)
Definition falsy_child (v : value) : node :=
  match v with
  | VNum x => TextNode (NumberToString engine x)
  | _ => Empty
  end.

(** [{result && (<Card> ... <pre>{content}</pre> ... </Card>)}] *)
Definition results (st : state) : node :=
  if truthy (result st) then ResultsCard (content st)
  else falsy_child (result st).

(** [new Blob([content], ...)]: a part that is [undefined] is taken as
    its string. *)
Definition blob_part (c : option string) : string :=
  match c with
  | Some s => s
  | None => "undefined"
  end.

(** [downloadResult]; [url] is what [URL.createObjectURL] returns. *)
Definition downloadResult (url : string) (st : state) : M unit :=
  if negb (truthy (result st)) then ret tt
  else
    let content := content st in
    let blob := mkBlob [blob_part content] "text/plain" in
    emit (NewBlob blob) ;;
    emit (CreateObjectURL blob url) ;;
    emit (CreateElement "a") ;;
    let a := mkAnchor url ("processed_schema." ++ outputFormat st) in
    emit (AppendChild a) ;;
    emit (Click a) ;;
    emit (RemoveChild a) ;;
    emit (RevokeObjectURL url).

End WithEngine.

End View.

(* ================================================================= *)
(** ** Whether the component renders *)

(** Whether React accepts [v] as a child: a plain object is refused, an
    array is accepted when each of its items is, every other value is. *)
Fixpoint valid_child (v : value) : bool :=
  match v with
  | VObj _ => false
  | VArr items => forallb valid_child items
  | _ => true
  end.

(** Whether the component renders from the cells [st].  The one child that
    can be a value of any shape is [{error}] inside the alert, drawn when
    [error] is truthy; every other child is a string, a number, an
    element, or the falsy value that [&&] stopped at.  When the render
    throws, React unmounts the component: the page is gone. *)
Definition renders (st : state) : bool :=
  if truthy (error st) then valid_child (error st) else true.

(* ================================================================= *)
(** ** The page as a transition system *)

Module App.

(** What the user can do, with the answer of the outside world where there
    is one. *)
Inductive action : Type :=
| ChooseFiles (files : list File)
| TypeQuery (text : string)
| SelectFormat (fmt : string)
| MoveThreshold (x : float)
| ClickProcess (reply : settled Api.Response)
| ClickDownload (url : string).

(** The Select offers [json] and [yaml]; a disabled button does not fire;
    the Download button is part of the Results card. *)
Definition enabled (st : state) (a : action) : bool :=
  match a with
  | SelectFormat fmt => String.eqb fmt "json" || String.eqb fmt "yaml"
  | ClickProcess _ => negb (disabled st)
  | ClickDownload _ => truthy (result st)
  | _ => true
  end.

Section WithEngine.

Variable engine : Engine.

Definition handler (a : action) (st : state) : M unit :=
  match a with
  | ChooseFiles files => handleFileChange files
  | TypeQuery text => emit (SetQuery text)
  | SelectFormat fmt => emit (SetOutputFormat fmt)
  | MoveThreshold x => emit (SetThreshold x)
  | ClickProcess reply => Api.processSchema engine reply st
  | ClickDownload url => View.downloadResult engine url st
  end.

(** The cells once the handler of [a] has run. *)
Definition step (st : state) (a : action) : state :=
  run st (handler a st).

(** The states of the page while it is mounted: a step whose cells do not
    render ends the page and leads nowhere. *)
Inductive reachable : state -> Prop :=
| reachable_initial : reachable initial
| reachable_step st a :
    reachable st -> enabled st a = true -> renders (step st a) = true ->
    reachable (step st a).

End WithEngine.

End App.

(** Counting the events of a trace that satisfy a test. *)
Definition count (p : event -> bool) (t : list event) : nat :=
  length (filter p t).

Definition is_fetch (ev : event) : bool :=
  match ev with Fetch _ _ => true | _ => false end.

Definition is_set_loading_true (ev : event) : bool :=
  match ev with SetLoading true => true | _ => false end.

Definition is_set_result (ev : event) : bool :=
  match ev with SetResult _ => true | _ => false end.

Definition is_create_url (ev : event) : bool :=
  match ev with CreateObjectURL _ _ => true | _ => false end.

Definition is_revoke (ev : event) : bool :=
  match ev with RevokeObjectURL _ => true | _ => false end.

(** A value that the page treats as present. *)
Definition populated (v : value) : Prop := truthy v = true.

(** Exactly one of the two cells is populated and the other is [null]. *)
Definition exactly_one (st : state) : Prop :=
  (populated (error st) /\ result st = VNull)
  \/ (populated (result st) /\ error st = VNull).

(** A Chromium-like engine for the examples; its numerals are a table of
    the numbers that the examples use. *)
Definition sample_engine : Engine :=
  {| NumberToString := fun x =>
       if PrimFloat.eqb x 0.85%float then "0.85"
       else if PrimFloat.eqb x 0.65%float then "0.65"
       else if PrimFloat.eqb x 1%float then "1"
       else "0";
     CannotRead := fun v k =>
       "Cannot read properties of "
         ++ (match v with VNull => "null" | _ => "undefined" end)
         ++ " (reading '" ++ k ++ "')" |}.

Definition schema_json : File := mkFile "schema.json" "{}".

(** The form of the scenario: schema.json chosen, a query typed. *)
Definition filled : state :=
  {| inputFile := Some schema_json; query := "find user orders";
     outputFormat := "json"; threshold := 0.1%float; result := VNull;
     error := VNull; loading := false |}.

(** A reply whose body parses to [data]. *)
Definition answers (data : value) : settled Api.Response :=
  Fulfilled (Api.mkResponse (Fulfilled data)).


(** The request that is sent from [st]. *)
Definition request_of (st : state) : event :=
  Fetch "/api/process-schema"
    (mkInit "POST"
       [("file", match inputFile st with
                 | Some f => FormFile f
                 | None => FormText "null"
                 end);
        ("query", FormText (query st));
        ("output_format", FormText (outputFormat st));
        ("threshold", FormNumber (threshold st))]).

(** Queries on a result payload: the entity names, a path of properties,
    the names of the columns of an entity. *)
Definition keys (v : value) : list string :=
  match v with
  | VObj props => map fst props
  | _ => []
  end.

Fixpoint at_path (v : value) (path : list string) : option value :=
  match path with
  | [] => Some v
  | k :: rest =>
      match get v k with
      | Some x => at_path x rest
      | None => None
      end
  end.

Definition column_names (payload : value) (entity : string)
  : list (option value) :=
  match at_path payload [entity; "columns"] with
  | Some (VArr cols) => map (fun c => get c "name") cols
  | _ => []
  end.

(** A reply that, when its body parses and is read without a throw, holds
    a populated value in the field that its branch stores. *)
Definition carries_payload (reply : settled Api.Response) : bool :=
  match reply with
  | Fulfilled (Api.mkResponse (Fulfilled data)) =>
      match get data "success" with
      | Some s =>
          match get data (if truthy s then "result" else "error") with
          | Some x => truthy x
          | None => true
          end
      | None => true
      end
  | _ => true
  end.

(** Two bodies a server can send, and the page after the first of them. *)
Definition accepted_body : value :=
  VObj [("success", VBool true); ("result", Mock.mockResult)].

Definition refused_body : value :=
  VObj [("success", VBool false); ("error", VStr "No relevant tables found")].

Definition served : state :=
  run filled (Api.processSchema sample_engine (answers accepted_body) filled).

(** Bodies that store nothing populated, and a body whose [error] is an
    object. *)
Definition null_result_body : value :=
  VObj [("success", VBool true); ("result", VNull)].

Definition bare_refusal_body : value := VObj [("success", VBool false)].

Definition object_error_body : value :=
  VObj [("success", VBool false);
        ("error", VObj [("code", VNum 1%float)])].

(** A body whose [result] is [false], and the page after it. *)
Definition false_body : value :=
  VObj [("success", VBool true); ("result", VBool false)].

Definition served_false : state :=
  run filled (Api.processSchema sample_engine (answers false_body) filled).

(* ================================================================= *)
(** ** The rest of the page *)

Module Form.

(** What stands where the error goes. *)
Inductive shown : Type :=
| Nothing
| Numeral (s : string)
| Alert (description : value)
| RenderThrows.

Section WithEngine.

Variable engine : Engine.

(** [{error && (<Alert ...><AlertDescription>{error}</AlertDescription>
    </Alert>)}]; a falsy [error] is drawn as [View.falsy_child] draws
    it, and a truthy one that React refuses as a child makes the render
    throw. *)
Definition error_alert (st : state) : shown :=
  if truthy (error st) then
    if valid_child (error st) then Alert (error st) else RenderThrows
  else
    match error st with
    | VNum x => Numeral (NumberToString engine x)
    | _ => Nothing
    end.

End WithEngine.

End Form.

(** The component of src/frontend.js as it stands, with its own
    [processSchema]: the reply carried by [App.ClickProcess] is not looked
    at. *)
Module Frontend.

Section WithEngine.

Variable engine : Engine.

Definition handler (a : App.action) (st : state) : M unit :=
  match a with
  | App.ChooseFiles files => handleFileChange files
  | App.TypeQuery text => emit (SetQuery text)
  | App.SelectFormat fmt => emit (SetOutputFormat fmt)
  | App.MoveThreshold x => emit (SetThreshold x)
  | App.ClickProcess _ => Mock.processSchema st
  | App.ClickDownload url => View.downloadResult engine url st
  end.

Definition step (st : state) (a : App.action) : state :=
  run st (handler a st).

Inductive reachable : state -> Prop :=
| reachable_initial : reachable initial
| reachable_step st a :
    reachable st -> App.enabled st a = true -> reachable (step st a).

End WithEngine.

End Frontend.

(** The events of a trace that come before its first [await] (the timer or
    the request), and the cells as they are drawn while the handler
    waits. *)
Fixpoint before_wait (t : list event) : list event :=
  match t with
  | [] => []
  | SetTimeout _ :: _ => []
  | Fetch _ _ :: _ => []
  | ev :: rest => ev :: before_wait rest
  end.

Definition pending (st : state) (m : M unit) : state :=
  fold_left apply (before_wait (trace m)) st.

(** A byte that stands for a character of its own and is not white
    space. *)
Definition visible_ascii (c : ascii) : bool :=
  ((N_of_ascii c <? 128)%N && negb (is_ws1 c))%bool.

(* ================================================================= *)
(** ** Properties *)

(** *** The guard *)

Lemma truthy_string (s : string) : truthy (VStr s) = false <-> s = "".
Proof.
  simpl. destruct (String.eqb_spec s ""); simpl; split; congruence.
Qed.

Lemma incomplete_true (st : state) :
  incomplete st = true <-> inputFile st = None \/ trim (query st) = "".
Proof.
  unfold incomplete. rewrite orb_true_iff, !negb_true_iff, truthy_string.
  destruct (inputFile st); simpl; intuition congruence.
Qed.

Lemma incomplete_false (st : state) :
  incomplete st = false <->
  (exists f, inputFile st = Some f) /\ trim (query st) <> "".
Proof.
  destruct (incomplete st) eqn:E.
  - apply incomplete_true in E. split; [discriminate|].
    intros [[f Hf] Hq]. destruct E; congruence.
  - split; [intros _|reflexivity].
    unfold incomplete in E. apply orb_false_iff in E. destruct E as [Ef Eq].
    split.
    + destruct (inputFile st) as [f|]; [eauto|discriminate].
    + intros Hq. apply truthy_string in Hq.
      rewrite Hq in Eq. discriminate.
Qed.

Lemma trim_empty : trim "" = "".
Proof. reflexivity. Qed.

Example trim_query :
  trim ("  find user orders " ++ LF) = "find user orders".
Proof. reflexivity. Qed.

(** A query of a space, a tab and a no-break space is blank. *)
Example trim_blank :
  trim (String (byte 32) (String (byte 9)
          (String (byte 194) (String (byte 160) "")))) = "".
Proof. reflexivity. Qed.

Example blank_query_incomplete :
  incomplete (mkState (Some schema_json) "   " "json" 0.1%float
                      VNull VNull false) = true.
Proof. reflexivity. Qed.

Example stringify_nested :
  JSON_stringify sample_engine
    (VObj [("a", VArr [VNum 1%float; VNull; VUndefined]);
           ("skipped", VUndefined); ("b", VObj [])])
  = Some ("{" ++ LF
          ++ "  " ++ DQUOTE ++ "a" ++ DQUOTE ++ ": [" ++ LF
          ++ "    1," ++ LF
          ++ "    null," ++ LF
          ++ "    null" ++ LF
          ++ "  ]," ++ LF
          ++ "  " ++ DQUOTE ++ "b" ++ DQUOTE ++ ": {}" ++ LF
          ++ "}").
Proof. reflexivity. Qed.

(** *** Reading from a response body *)

Lemma get_defined (v : value) (k k' : string) (x : value) :
  get v k = Some x -> exists y, get v k' = Some y.
Proof.
  destruct v; simpl; try discriminate; intros _; eauto.
  destruct (assoc k' props); eauto.
Qed.

Ltac js_unfold :=
  unfold Api.processSchema, Api.attempt, Api.read, Mock.processSchema,
    Mock.attempt, handleFileChange, try_catch_finally, bind, emit, await,
    ret, throw, answers, run, trace, ending in *.

(** The handlers with the guard decided. *)
Lemma api_refused engine reply st :
  incomplete st = true ->
  Api.processSchema engine reply st
  = ([SetError (VStr validation_message)], Normal tt).
Proof. intros H. unfold Api.processSchema. rewrite H. reflexivity. Qed.

Lemma mock_refused st :
  incomplete st = true ->
  Mock.processSchema st = ([SetError (VStr validation_message)], Normal tt).
Proof. intros H. unfold Mock.processSchema. rewrite H. reflexivity. Qed.

Lemma mock_accepted st :
  incomplete st = false ->
  Mock.processSchema st
  = ([SetLoading true; SetError VNull; SetTimeout 1500;
      SetResult Mock.mockResult; SetLoading false], Normal tt).
Proof. intros H. unfold Mock.processSchema. rewrite H. reflexivity. Qed.

(** Every accepted submission has the same frame: the two resets, the one
    request, one last setter call decided by the reply, and the release of
    [loading]. *)
Lemma api_accepted engine reply st :
  incomplete st = false ->
  exists last_call,
    Api.processSchema engine reply st
    = ([SetLoading true; SetError VNull; request_of st; last_call;
        SetLoading false], Normal tt)
    /\ match Api.attempt engine reply st with
       | (_, Normal _) =>
           exists data s,
             reply = answers data /\ get data "success" = Some s
             /\ if truthy s
                then exists r, get data "result" = Some r
                               /\ last_call = SetResult r
                else exists e, get data "error" = Some e
                               /\ last_call = SetError e
       | (_, Throw err) =>
           last_call = SetError (VStr (error_prefix ++ message err))
       end.
Proof.
  intros H. unfold Api.processSchema. rewrite H.
  destruct reply as [[[data|e]]|e].
  - destruct (get data "success") as [s|] eqn:Es.
    + destruct (truthy s) eqn:Ts.
      * destruct (get_defined _ _ "result" _ Es) as [r Er].
        exists (SetResult r). js_unfold. cbn. rewrite Es. cbn. rewrite Ts.
        rewrite Er. cbn. split; [reflexivity|].
        exists data, s. rewrite Ts. eauto 6.
      * destruct (get_defined _ _ "error" _ Es) as [r Er].
        exists (SetError r). js_unfold. cbn. rewrite Es. cbn. rewrite Ts.
        rewrite Er. cbn. split; [reflexivity|].
        exists data, s. rewrite Ts. eauto 6.
    + eexists. js_unfold. cbn. rewrite Es. cbn. split; reflexivity.
  - eexists. js_unfold. cbn. split; reflexivity.
  - eexists. js_unfold. cbn. split; reflexivity.
Qed.

(* ----------------------------------------------------------------- *)
(** *** The submission controller *)

(** C1.  With the file absent or the query blank after trimming, either
    [processSchema] only calls [setError] with the message "Please provide
    both a schema file and a query": no request is sent, [setLoading(true)]
    is never called and [loading] keeps its value. *)
Theorem processSchema_rejects_incomplete_form engine reply st m :
  inputFile st = None \/ trim (query st) = "" ->
  m = Mock.processSchema st \/ m = Api.processSchema engine reply st ->
  trace m = [SetError (VStr "Please provide both a schema file and a query")]
  /\ error (run st m)
     = VStr "Please provide both a schema file and a query"
  /\ count is_fetch (trace m) = 0
  /\ count is_set_loading_true (trace m) = 0
  /\ loading (run st m) = loading st.
Proof.
  intros Hin Hm. apply incomplete_true in Hin.
  assert (E : m = ([SetError (VStr validation_message)], Normal tt)).
  { destruct Hm; subst m; [apply mock_refused|apply api_refused]; exact Hin. }
  subst m. repeat split.
Qed.

Lemma processSchema_rejects_incomplete_form_witness :
  let st := mkState None "anything" "json" 0.1%float VNull VNull false in
  let m := Api.processSchema sample_engine (Rejected (mkError "TypeError" "Failed to fetch")) st in
  error (run st m) = VStr "Please provide both a schema file and a query"
  /\ count is_fetch (trace m) = 0.
Proof.
  intros st m.
  destruct (processSchema_rejects_incomplete_form sample_engine
              (Rejected (mkError "TypeError" "Failed to fetch")) st m
              (or_introl eq_refl) (or_intror eq_refl))
    as (_ & He & Hf & _).
  split; [exact He|exact Hf].
Defined.

(** C2.  When the body of the response parses to an object whose [success]
    is [true], the submission leaves [result] equal to the body's [result]
    field and [error] equal to [null]. *)
Theorem success_stores_result engine st data :
  incomplete st = false ->
  get data "success" = Some (VBool true) ->
  let st' := run st (Api.processSchema engine (answers data) st) in
  Some (result st') = get data "result" /\ error st' = VNull.
Proof.
  intros Hok Hs st'.
  destruct (api_accepted engine (answers data) st Hok) as (ev & Hm & Hev).
  subst st'. rewrite Hm.
  destruct (Api.attempt engine (answers data) st) as [t [[]|err]] eqn:Ea.
  - destruct Hev as (d & s & Hd & Hsd & Hbr).
    assert (d = data) by (unfold answers in Hd; congruence). subst d.
    assert (s = VBool true) by congruence. subst s.
    simpl in Hbr. destruct Hbr as (r & Hr & ->). rewrite Hr.
    split; reflexivity.
  - exfalso. revert Ea. js_unfold. cbn. rewrite Hs. cbn.
    destruct (get_defined _ _ "result" _ Hs) as [r ->]. cbn. discriminate.
Qed.

Lemma success_stores_result_witness :
  let data := VObj [("success", VBool true); ("result", Mock.mockResult)] in
  let st' := run filled (Api.processSchema sample_engine (answers data) filled) in
  Some (result st') = Some Mock.mockResult /\ error st' = VNull.
Proof.
  intros data st'.
  exact (success_stores_result sample_engine filled data eq_refl eq_refl).
Defined.

(** C3.  When the body of the response parses to an object whose [success]
    is [false], the submission leaves [error] equal to the body's [error]
    field, and [result] as it was before: [setResult] is not called. *)
Theorem failure_stores_error_keeps_result engine st data :
  incomplete st = false ->
  get data "success" = Some (VBool false) ->
  let m := Api.processSchema engine (answers data) st in
  Some (error (run st m)) = get data "error"
  /\ result (run st m) = result st
  /\ count is_set_result (trace m) = 0.
Proof.
  intros Hok Hs m.
  destruct (api_accepted engine (answers data) st Hok) as (ev & Hm & Hev).
  subst m. rewrite Hm.
  destruct (Api.attempt engine (answers data) st) as [t [[]|err]] eqn:Ea.
  - destruct Hev as (d & s & Hd & Hsd & Hbr).
    assert (d = data) by (unfold answers in Hd; congruence). subst d.
    assert (s = VBool false) by congruence. subst s.
    simpl in Hbr. destruct Hbr as (e & He & ->). rewrite He.
    repeat split.
  - exfalso. revert Ea. js_unfold. cbn. rewrite Hs. cbn.
    destruct (get_defined _ _ "error" _ Hs) as [r ->]. cbn. discriminate.
Qed.

Lemma failure_stores_error_keeps_result_witness :
  let prior := run filled (Mock.processSchema filled) in
  let data := VObj [("success", VBool false);
                    ("error", VStr "No relevant tables found")] in
  let m := Api.processSchema sample_engine (answers data) prior in
  Some (error (run prior m)) = Some (VStr "No relevant tables found")
  /\ result (run prior m) = Mock.mockResult
  /\ count is_set_result (trace m) = 0.
Proof.
  intros prior data m.
  exact (failure_stores_error_keeps_result sample_engine prior data
           eq_refl eq_refl).
Defined.

Lemma filled_reachable : App.reachable sample_engine filled.
Proof.
  assert (E : filled
              = App.step sample_engine
                  (App.step sample_engine initial
                     (App.ChooseFiles [schema_json]))
                  (App.TypeQuery "find user orders"))
    by reflexivity.
  rewrite E.
  repeat (apply App.reachable_step; [|reflexivity|reflexivity]).
  apply App.reachable_initial.
Qed.

Lemma answered_reachable (data : value) :
  renders (run filled (Api.processSchema sample_engine (answers data) filled))
  = true ->
  App.reachable sample_engine
    (run filled (Api.processSchema sample_engine (answers data) filled)).
Proof.
  intros Hrender.
  apply (App.reachable_step sample_engine filled
           (App.ClickProcess (answers data)));
    [exact filled_reachable|reflexivity|exact Hrender].
Qed.

(** C4, as stated, fails: after a served submission the page holds a
    result; a second submission that the server refuses leaves that result
    beside the new error.  It fails in the other direction too: from the
    filled form, whose [result] is null, a body with [success] true and a
    null [result], or a refusal without an [error], leaves neither cell
    populated. *)
Lemma stale_result_beside_new_error :
  App.reachable sample_engine served
  /\ disabled served = false
  /\ ~ exactly_one
        (run served
           (Api.processSchema sample_engine (answers refused_body) served))
  /\ App.reachable sample_engine filled
  /\ disabled filled = false
  /\ result filled = VNull
  /\ ~ exactly_one
        (run filled
           (Api.processSchema sample_engine (answers null_result_body)
              filled))
  /\ ~ exactly_one
        (run filled
           (Api.processSchema sample_engine (answers bare_refusal_body)
              filled)).
Proof.
  split; [exact (answered_reachable accepted_body eq_refl)|].
  split; [reflexivity|].
  split; [intros [[_ H]|[_ H]]; vm_compute in H; discriminate H|].
  split; [exact filled_reachable|]. split; [reflexivity|].
  split; [reflexivity|].
  split; intros [[H _]|[H _]]; vm_compute in H; discriminate H.
Qed.

Lemma prefixed_populated (msg : string) :
  populated (VStr (error_prefix ++ msg)).
Proof. reflexivity. Qed.

(** C4, amended.  A submission ends with exactly one of [error] and
    [result] populated and the other [null] whenever (a) [result] was
    [null] when it started or the submission calls [setResult] (a body with
    a truthy [success], or the accepted path of src/frontend.js), and (b)
    the reply, where a body is parsed and read, carries a populated value
    in the field of its branch.  This holds for either [processSchema],
    for every prior state and every reply, also when the guard refuses the
    form. *)
Theorem exactly_one_after_submission engine reply st m :
  m = Mock.processSchema st \/ m = Api.processSchema engine reply st ->
  result st = VNull \/ count is_set_result (trace m) = 1 ->
  carries_payload reply = true ->
  exactly_one (run st m).
Proof.
  intros Hm Hres Hp. destruct (incomplete st) eqn:Hin.
  - assert (E : m = ([SetError (VStr validation_message)], Normal tt)).
    { destruct Hm; subst m; [apply mock_refused|apply api_refused];
        exact Hin. }
    rewrite E in *. destruct Hres as [Hr|Hc]; [|discriminate Hc].
    left. split; [reflexivity|exact Hr].
  - destruct Hm as [->| ->].
    + rewrite (mock_accepted st Hin). right. split; reflexivity.
    + destruct (api_accepted engine reply st Hin) as (ev & Hm & Hev).
      rewrite Hm in *.
      destruct (Api.attempt engine reply st) as [t [[]|err]].
      * destruct Hev as (data & s & -> & Hs & Hbr).
        unfold carries_payload, answers in Hp. rewrite Hs in Hp.
        destruct (truthy s).
        -- destruct Hbr as (r & Hg & ->). rewrite Hg in Hp.
           right. split; [exact Hp|reflexivity].
        -- destruct Hbr as (e & Hg & ->). rewrite Hg in Hp.
           destruct Hres as [Hr|Hc]; [|discriminate Hc].
           left. split; [exact Hp|exact Hr].
      * subst ev. destruct Hres as [Hr|Hc]; [|discriminate Hc].
        left. split; [apply prefixed_populated|exact Hr].
Qed.

(** A second served submission, from a page that already shows a
    result. *)
Lemma exactly_one_after_submission_witness :
  result served <> VNull
  /\ exactly_one
       (run served
          (Api.processSchema sample_engine (answers accepted_body) served)).
Proof.
  split; [discriminate|].
  exact (exactly_one_after_submission sample_engine (answers accepted_body)
           served _ (or_intror eq_refl) (or_intror eq_refl) eq_refl).
Defined.

(** C5.  Whatever is thrown in the [try] block (the rejection of [fetch],
    the rejection of [response.json()], a failed read of the body), the
    submission leaves [error] equal to "Error processing schema: " followed
    by the message of what was thrown. *)
Theorem exception_sets_prefixed_error engine reply st err :
  incomplete st = false ->
  reply = Rejected err
  \/ reply = Fulfilled (Api.mkResponse (Rejected err))
  \/ ending (Api.attempt engine reply st) = Throw err ->
  error (run st (Api.processSchema engine reply st))
  = VStr ("Error processing schema: " ++ message err).
Proof.
  intros Hin Hthrown.
  assert (Ht : ending (Api.attempt engine reply st) = Throw err).
  { destruct Hthrown as [->|[->|H]]; [reflexivity|reflexivity|exact H]. }
  destruct (api_accepted engine reply st Hin) as (ev & Hm & Hev).
  rewrite Hm. destruct (Api.attempt engine reply st) as [t c].
  unfold ending in Ht. simpl in Ht. subst c. subst ev. reflexivity.
Qed.

Lemma exception_sets_prefixed_error_witness :
  error (run filled
           (Api.processSchema sample_engine
              (Rejected (mkError "TypeError" "Failed to fetch")) filled))
  = VStr "Error processing schema: Failed to fetch".
Proof.
  exact (exception_sets_prefixed_error sample_engine
           (Rejected (mkError "TypeError" "Failed to fetch")) filled
           (mkError "TypeError" "Failed to fetch") eq_refl
           (or_introl eq_refl)).
Defined.

(** C6.  A submission that passes the guard ends with [loading] equal to
    [false], whatever the reply: the last event of either [processSchema]
    is [setLoading(false)]. *)
Theorem loading_released engine reply st m :
  incomplete st = false ->
  m = Mock.processSchema st \/ m = Api.processSchema engine reply st ->
  loading (run st m) = false
  /\ last (trace m) (SetLoading true) = SetLoading false.
Proof.
  intros Hin [->| ->].
  - rewrite (mock_accepted st Hin). split; reflexivity.
  - destruct (api_accepted engine reply st Hin) as (ev & -> & _).
    destruct ev; split; reflexivity.
Qed.

Lemma loading_released_witness :
  let malformed :=
    Fulfilled (Api.mkResponse
                 (Rejected (mkError "SyntaxError" "Unexpected token <"))) in
  let m := Api.processSchema sample_engine malformed filled in
  loading (run filled m) = false
  /\ last (trace m) (SetLoading true) = SetLoading false.
Proof.
  intros malformed m.
  exact (loading_released sample_engine malformed filled m eq_refl
           (or_intror eq_refl)).
Defined.

(** C8.  In src/frontend.js a submission that passes the guard waits for
    the 1500 ms timer and then calls [setResult] with the hardcoded payload
    of two entities, [orders] (relevance 0.85, columns order_id and
    user_id) and [users] (relevance 0.65, columns user_id and username);
    [error] ends as [null], nothing is thrown and [setError] is only
    called with [null]. *)
Theorem mock_populates_payload st :
  incomplete st = false ->
  let m := Mock.processSchema st in
  trace m = [SetLoading true; SetError VNull; SetTimeout 1500;
             SetResult Mock.mockResult; SetLoading false]
  /\ ending m = Normal tt
  /\ result (run st m) = Mock.mockResult
  /\ error (run st m) = VNull
  /\ keys Mock.mockResult = ["orders"; "users"]
  /\ at_path Mock.mockResult ["orders"; "relevance_score"]
     = Some (VNum 0.85%float)
  /\ column_names Mock.mockResult "orders"
     = [Some (VStr "order_id"); Some (VStr "user_id")]
  /\ at_path Mock.mockResult ["users"; "relevance_score"]
     = Some (VNum 0.65%float)
  /\ column_names Mock.mockResult "users"
     = [Some (VStr "user_id"); Some (VStr "username")].
Proof.
  intros Hin m. subst m. rewrite (mock_accepted st Hin).
  repeat split.
Qed.

Lemma mock_populates_payload_witness :
  result (run filled (Mock.processSchema filled)) = Mock.mockResult
  /\ error (run filled (Mock.processSchema filled)) = VNull.
Proof.
  destruct (mock_populates_payload filled eq_refl) as (_ & _ & Hr & He & _).
  split; [exact Hr|exact He].
Defined.

(* ----------------------------------------------------------------- *)
(** *** The file input *)

(** C10.  When [files[0]] is absent [handleFileChange] calls no setter, so
    the chosen file and the error stay as they were; when a file is there
    it becomes [inputFile], [error] becomes [null] and the other cells
    stay. *)
Theorem handleFileChange_frame st files :
  (nth_error files 0 = None ->
     trace (handleFileChange files) = []
     /\ run st (handleFileChange files) = st)
  /\ (forall f, nth_error files 0 = Some f ->
       run st (handleFileChange files)
       = mkState (Some f) (query st) (outputFormat st) (threshold st)
                 (result st) VNull (loading st)).
Proof.
  unfold handleFileChange. split.
  - intros ->. split; reflexivity.
  - intros f ->. reflexivity.
Qed.

(* ----------------------------------------------------------------- *)
(** *** The results card and the download *)

Lemma serialize_defined engine indent v :
  truthy v = true -> serialize engine indent v <> None.
Proof.
  destruct v as [| |[|]| | |items|props]; simpl; try discriminate.
  - intros _. destruct (map _ items); discriminate.
  - intros _. destruct (flat_map _ props); discriminate.
Qed.

(** C7, as stated, fails: a server may answer [result: false]; that result
    is not [null], the format is json, [JSON.stringify] gives the text
    [false], and yet no card is drawn. *)
Lemma false_result_draws_nothing :
  App.reachable sample_engine served_false
  /\ result served_false <> VNull
  /\ outputFormat served_false = "json"
  /\ JSON_stringify sample_engine (result served_false) = Some "false"
  /\ View.results sample_engine served_false = View.Empty
  /\ View.results sample_engine served_false
     <> View.ResultsCard (JSON_stringify sample_engine (result served_false)).
Proof.
  split; [exact (answered_reachable false_body eq_refl)|].
  repeat split; discriminate.
Qed.

(** C7, amended.  What is drawn for the results depends on [result] and
    [outputFormat] only.  For a truthy [result] it is the card whose block
    holds [JSON.stringify(result, null, 2)], which is a text, when the
    format is json, and the constant "# YAML output would be here" when the
    format is yaml, whatever the result holds; for [result] equal to [null]
    nothing is drawn. *)
Theorem results_view engine st :
  (truthy (result st) = true ->
     (outputFormat st = "json" ->
        View.results engine st
        = View.ResultsCard (JSON_stringify engine (result st))
        /\ JSON_stringify engine (result st) <> None)
     /\ (outputFormat st = "yaml" ->
          View.results engine st
          = View.ResultsCard (Some "# YAML output would be here")))
  /\ (result st = VNull -> View.results engine st = View.Empty)
  /\ (forall st', result st' = result st ->
                  outputFormat st' = outputFormat st ->
                  View.results engine st' = View.results engine st).
Proof.
  unfold View.results, View.content. split; [|split].
  - intros Ht. rewrite Ht. split; intros ->.
    + split; [reflexivity|]. apply serialize_defined. exact Ht.
    + reflexivity.
  - intros ->. reflexivity.
  - intros st' -> ->. reflexivity.
Qed.

(** The guard of [downloadResult] tests truthiness.  At a result that is
    falsy without being [null] the function would return at once; the page
    never makes that call, since its only caller, the Download button, is
    part of the card that is drawn for a truthy result. *)
Lemma false_result_downloads_nothing :
  App.reachable sample_engine served_false
  /\ result served_false <> VNull
  /\ App.enabled served_false (App.ClickDownload "blob:1") = false
  /\ trace (View.downloadResult sample_engine "blob:1" served_false) = [].
Proof.
  split; [exact (answered_reachable false_body eq_refl)|].
  repeat split; discriminate.
Qed.

(** C9.  With [result] equal to [null], [downloadResult] does nothing: no
    blob, no DOM call.  In every call that the page can make (the Download
    button is drawn, so [result] is not [null]) it builds one blob, creates
    exactly one object URL for it, clicks an anchor whose [href] is that
    URL and whose [download] is processed_schema.<outputFormat>, and
    revokes that URL exactly once, immediately after the synthetic click
    (in the same call, with only the removal of the anchor between, as its
    last step): the URL is neither leaked nor revoked twice. *)
Theorem downloadResult_scoped_url engine url st :
  let t := trace (View.downloadResult engine url st) in
  (result st = VNull -> t = [])
  /\ (App.enabled st (App.ClickDownload url) = true ->
       result st <> VNull
       /\ exists blob a,
            t = [NewBlob blob; CreateObjectURL blob url; CreateElement "a";
                 AppendChild a; Click a; RemoveChild a; RevokeObjectURL url]
            /\ parts blob = [View.blob_part (View.content engine st)]
            /\ href a = url
            /\ download a = "processed_schema." ++ outputFormat st
            /\ count is_create_url t = 1
            /\ count is_revoke t = 1
            /\ last t (Click a) = RevokeObjectURL url).
Proof.
  unfold View.downloadResult. split.
  - intros ->. reflexivity.
  - simpl App.enabled. intros Ht. rewrite Ht. split.
    + intros E. rewrite E in Ht. discriminate Ht.
    + simpl. do 2 eexists. repeat split.
Qed.

(** The download after a served submission. *)
Lemma downloadResult_scoped_url_witness :
  exists blob a,
    trace (View.downloadResult sample_engine "blob:1" served)
    = [NewBlob blob; CreateObjectURL blob "blob:1"; CreateElement "a";
       AppendChild a; Click a; RemoveChild a; RevokeObjectURL "blob:1"]
    /\ download a = "processed_schema.json".
Proof.
  destruct (proj2 (downloadResult_scoped_url sample_engine "blob:1" served)
              eq_refl)
    as (_ & blob & a & Ht & _ & _ & Hd & _).
  exists blob, a. split; [exact Ht|exact Hd].
Defined.

Example download_served :
  trace (View.downloadResult sample_engine "blob:1" served)
  = [NewBlob (mkBlob [View.blob_part (View.content sample_engine served)]
                     "text/plain");
     CreateObjectURL
       (mkBlob [View.blob_part (View.content sample_engine served)]
               "text/plain") "blob:1";
     CreateElement "a";
     AppendChild (mkAnchor "blob:1" "processed_schema.json");
     Click (mkAnchor "blob:1" "processed_schema.json");
     RemoveChild (mkAnchor "blob:1" "processed_schema.json");
     RevokeObjectURL "blob:1"].
Proof. reflexivity. Qed.

Example yaml_ignores_result :
  View.results sample_engine
    (mkState (Some schema_json) "q" "yaml" 0.1%float Mock.mockResult VNull
             false)
  = View.results sample_engine
      (mkState (Some schema_json) "q" "yaml" 0.1%float (VArr []) VNull false).
Proof. reflexivity. Qed.

Example cancelled_dialog_keeps_cells :
  run served (handleFileChange []) = served.
Proof. reflexivity. Qed.

(* ================================================================= *)
(** ** Further properties of the submission *)

(** An accepted submission ends in one of two shapes. *)
Lemma api_trace engine reply st :
  incomplete st = false ->
  exists v,
    Api.processSchema engine reply st
    = ([SetLoading true; SetError VNull; request_of st; SetResult v;
        SetLoading false], Normal tt)
    \/ Api.processSchema engine reply st
       = ([SetLoading true; SetError VNull; request_of st; SetError v;
           SetLoading false], Normal tt).
Proof.
  intros Hin.
  destruct (api_accepted engine reply st Hin) as (ev & Hm & Hev).
  destruct (Api.attempt engine reply st) as [t [[]|err]].
  - destruct Hev as (data & s & _ & _ & Hbr).
    destruct (truthy s); destruct Hbr as (x & _ & ->); eauto.
  - subst ev. eauto.
Qed.

(** A body that can be read: the branch is chosen by the truthiness of
    [success]. *)
Lemma api_parsed engine st data s :
  incomplete st = false ->
  get data "success" = Some s ->
  exists x,
    get data (if truthy s then "result" else "error") = Some x
    /\ Api.processSchema engine (answers data) st
       = ([SetLoading true; SetError VNull; request_of st;
           (if truthy s then SetResult x else SetError x);
           SetLoading false], Normal tt).
Proof.
  intros Hin Hs.
  destruct (get_defined _ _ (if truthy s then "result" else "error") _ Hs)
    as [x Hx].
  exists x. split; [exact Hx|].
  unfold Api.processSchema. rewrite Hin. js_unfold. cbn. rewrite Hs. cbn.
  destruct (truthy s); rewrite Hx; reflexivity.
Qed.

Lemma disabled_false (st : state) :
  disabled st = false <-> loading st = false /\ incomplete st = false.
Proof. unfold disabled. apply orb_false_iff. Qed.

(** X1.  While an accepted submission waits (for the timer in
    src/frontend.js, for the request in the other variant) the cells are
    drawn with [loading] true and [error] null, so the Process button is
    disabled and the old alert is gone; [result] is still the old one. *)
Theorem pending_submission_locks_button engine reply st m :
  incomplete st = false ->
  m = Mock.processSchema st \/ m = Api.processSchema engine reply st ->
  (exists w rest,
     trace m = [SetLoading true; SetError VNull] ++ w :: rest
     /\ (w = SetTimeout 1500 \/ w = request_of st))%list
  /\ before_wait (trace m) = [SetLoading true; SetError VNull]
  /\ disabled (pending st m) = true
  /\ error (pending st m) = VNull
  /\ result (pending st m) = result st.
Proof.
  intros Hin [->| ->].
  - unfold pending. rewrite (mock_accepted st Hin).
    split; [|repeat split]. do 2 eexists. split; [reflexivity|]. now left.
  - unfold pending.
    destruct (api_trace engine reply st Hin) as [v [-> | ->]];
      (split; [|repeat split]); do 2 eexists;
      (split; [reflexivity|]); now right.
Qed.

Lemma pending_submission_locks_button_witness :
  let m := Api.processSchema sample_engine (answers refused_body) served in
  disabled (pending served m) = true
  /\ result (pending served m) = Mock.mockResult.
Proof.
  intros m.
  destruct (pending_submission_locks_button sample_engine
              (answers refused_body) served m eq_refl (or_intror eq_refl))
    as (_ & _ & Hd & _ & Hr).
  split; [exact Hd|exact Hr].
Defined.

(** X2.  A click on the Process button while it is enabled always sends
    exactly one request, whatever the reply: a POST to /api/process-schema
    whose form holds, in this order, the chosen file, the query as typed
    (not trimmed), the output format and the threshold. *)
Theorem enabled_click_posts_form engine reply st :
  disabled st = false ->
  exists f,
    inputFile st = Some f
    /\ filter is_fetch (trace (Api.processSchema engine reply st))
       = [Fetch "/api/process-schema"
            (mkInit "POST"
               [("file", FormFile f);
                ("query", FormText (query st));
                ("output_format", FormText (outputFormat st));
                ("threshold", FormNumber (threshold st))])].
Proof.
  intros Hd. apply disabled_false in Hd. destruct Hd as [_ Hin].
  destruct (proj1 (incomplete_false st) Hin) as [[f Hf] _].
  exists f. split; [exact Hf|].
  destruct (api_trace engine reply st Hin) as [v [-> | ->]];
    unfold request_of; rewrite Hf; reflexivity.
Qed.

Lemma enabled_click_posts_form_witness :
  exists f,
    inputFile (mkState (Some schema_json) " find user orders " "yaml"
                       0.1%float VNull VNull false) = Some f
    /\ filter is_fetch
         (trace (Api.processSchema sample_engine (answers refused_body)
                   (mkState (Some schema_json) " find user orders " "yaml"
                            0.1%float VNull VNull false)))
       = [Fetch "/api/process-schema"
            (mkInit "POST"
               [("file", FormFile f);
                ("query", FormText " find user orders ");
                ("output_format", FormText "yaml");
                ("threshold", FormNumber 0.1%float)])].
Proof.
  exact (enabled_click_posts_form sample_engine (answers refused_body)
           (mkState (Some schema_json) " find user orders " "yaml"
                    0.1%float VNull VNull false) eq_refl).
Defined.

(** X3.  The [success] field of a body is tested for truthiness, not for
    being [true]: any truthy value (1, a non-empty string such as "false",
    an object) stores the body's [result] and leaves [error] null; any
    falsy or missing value (0, the empty string, [null], no such key)
    stores the body's [error] and keeps [result]. *)
Theorem success_is_tested_for_truthiness engine st data s :
  incomplete st = false ->
  get data "success" = Some s ->
  let st' := run st (Api.processSchema engine (answers data) st) in
  (truthy s = true ->
     Some (result st') = get data "result" /\ error st' = VNull)
  /\ (truthy s = false ->
      Some (error st') = get data "error" /\ result st' = result st).
Proof.
  intros Hin Hs st'. subst st'.
  destruct (api_parsed engine st data s Hin Hs) as (x & Hx & ->).
  split; intros Ht; rewrite Ht in Hx; rewrite Ht, Hx; split; reflexivity.
Qed.

Lemma success_is_tested_for_truthiness_witness :
  let data := VObj [("success", VStr "false"); ("result", VNum 1%float);
                    ("error", VStr "No relevant tables found")] in
  let st' := run filled (Api.processSchema sample_engine (answers data) filled) in
  Some (result st') = Some (VNum 1%float) /\ error st' = VNull.
Proof.
  intros data st'.
  exact (proj1 (success_is_tested_for_truthiness sample_engine filled data
                  (VStr "false") eq_refl eq_refl) eq_refl).
Defined.

(** X4.  A body that parses to [null] cannot be read: the TypeError of
    [data.success] is caught, so [error] ends as "Error processing schema: "
    followed by the engine's message, [result] is kept and [loading] ends
    false. *)
Theorem null_body_is_reported engine st :
  incomplete st = false ->
  let st' := run st (Api.processSchema engine (answers VNull) st) in
  error st'
  = VStr ("Error processing schema: " ++ CannotRead engine VNull "success")
  /\ result st' = result st
  /\ loading st' = false.
Proof.
  intros Hin st'. subst st'. unfold Api.processSchema. rewrite Hin.
  repeat split.
Qed.

Lemma null_body_is_reported_witness :
  error (run filled (Api.processSchema sample_engine (answers VNull) filled))
  = VStr "Error processing schema: Cannot read properties of null (reading 'success')".
Proof.
  exact (proj1 (null_body_is_reported sample_engine filled eq_refl)).
Defined.

(** X5.  A body that can be read but has neither a [success] nor an
    [error] (a JSON array, a number, an object with other keys) ends the
    submission without any feedback: [error] is [undefined], so no alert is
    drawn, what is drawn for the results is what was drawn before, and
    [loading] is false again. *)
Theorem body_without_fields_is_silent engine st data :
  incomplete st = false ->
  get data "success" = Some VUndefined ->
  get data "error" = Some VUndefined ->
  let st' := run st (Api.processSchema engine (answers data) st) in
  error st' = VUndefined
  /\ Form.error_alert engine st' = Form.Nothing
  /\ View.results engine st' = View.results engine st
  /\ loading st' = false.
Proof.
  intros Hin Hs He st'. subst st'.
  destruct (api_parsed engine st data VUndefined Hin Hs) as (x & Hx & ->).
  simpl in Hx. rewrite He in Hx. injection Hx as <-.
  repeat split.
Qed.

Lemma body_without_fields_is_silent_witness :
  let data := VObj [("result", Mock.mockResult)] in
  let st' := run filled (Api.processSchema sample_engine (answers data) filled) in
  error st' = VUndefined
  /\ Form.error_alert sample_engine st' = Form.Nothing
  /\ View.results sample_engine st' = View.results sample_engine filled
  /\ loading st' = false.
Proof.
  intros data st'.
  exact (body_without_fields_is_silent sample_engine filled data
           eq_refl eq_refl eq_refl).
Defined.

(* ================================================================= *)
(** ** Invariants of the page *)

Lemma download_keeps_cells engine url st0 st :
  run st (View.downloadResult engine url st0) = st.
Proof.
  unfold View.downloadResult. destruct (truthy (result st0)); reflexivity.
Qed.

Lemma enabled_format st fmt :
  App.enabled st (App.SelectFormat fmt) = true ->
  fmt = "json" \/ fmt = "yaml".
Proof.
  simpl. rewrite orb_true_iff, !String.eqb_eq. tauto.
Qed.

Lemma enabled_process st reply :
  App.enabled st (App.ClickProcess reply) = true ->
  loading st = false /\ incomplete st = false.
Proof.
  simpl. rewrite negb_true_iff. apply disabled_false.
Qed.

(** The format is one of the two that the Select offers. *)
Lemma app_format engine st :
  App.reachable engine st ->
  outputFormat st = "json" \/ outputFormat st = "yaml".
Proof.
  induction 1 as [|st a Hr IH He _]; [now left|].
  unfold App.step. destruct a as [files|text|fmt|x|reply|url]; simpl.
  - destruct files; exact IH.
  - exact IH.
  - exact (enabled_format st fmt He).
  - exact IH.
  - apply enabled_process in He. destruct He as [_ Hin].
    destruct (api_trace engine reply st Hin) as [v [-> | ->]]; exact IH.
  - rewrite download_keeps_cells. exact IH.
Qed.

(** X6.  The page of src/frontend.js, whatever the user does: between two
    handlers [loading] is false, [error] is null, so that no alert is ever
    drawn, [result] is null or the hardcoded payload, and the format is
    json or yaml. *)
Theorem frontend_never_shows_an_error engine st :
  Frontend.reachable engine st ->
  loading st = false
  /\ error st = VNull
  /\ Form.error_alert engine st = Form.Nothing
  /\ (result st = VNull \/ result st = Mock.mockResult)
  /\ (outputFormat st = "json" \/ outputFormat st = "yaml").
Proof.
  induction 1 as [|st a Hr IH He].
  - repeat split; now left.
  - destruct IH as (Hl & Herr & _ & Hres & Hfmt).
    assert (Halert : forall st', error st' = VNull ->
                                 Form.error_alert engine st' = Form.Nothing).
    { intros st' E. unfold Form.error_alert. rewrite E. reflexivity. }
    unfold Frontend.step.
    destruct a as [files|text|fmt|x|reply|url]; simpl Frontend.handler.
    + destruct files as [|f rest]; repeat split; auto.
    + repeat split; auto.
    + repeat split; auto. exact (enabled_format st fmt He).
    + repeat split; auto.
    + apply enabled_process in He. destruct He as [_ Hin].
      rewrite (mock_accepted st Hin). repeat split; auto.
    + rewrite download_keeps_cells. repeat split; auto.
Qed.

Lemma frontend_never_shows_an_error_witness :
  let st1 := Frontend.step sample_engine initial
               (App.ChooseFiles [schema_json]) in
  let st2 := Frontend.step sample_engine st1
               (App.TypeQuery "find user orders") in
  let st := Frontend.step sample_engine st2
              (App.ClickProcess (answers refused_body)) in
  error st = VNull /\ result st = Mock.mockResult.
Proof.
  intros st1 st2 st.
  destruct (frontend_never_shows_an_error sample_engine st
              (Frontend.reachable_step sample_engine st2
                 (App.ClickProcess (answers refused_body))
                 (Frontend.reachable_step sample_engine st1
                    (App.TypeQuery "find user orders")
                    (Frontend.reachable_step sample_engine initial
                       (App.ChooseFiles [schema_json])
                       (Frontend.reachable_initial sample_engine)
                       eq_refl)
                    eq_refl)
                 eq_refl))
    as (_ & He & _ & _ & _).
  split; [exact He|reflexivity].
Defined.

(** A reply whose [error] is an object ends the page: the cells it leaves
    do not render, so no state of the mounted page comes out of it. *)
Example object_error_unmounts :
  renders (App.step sample_engine filled
             (App.ClickProcess (answers object_error_body))) = false
  /\ Form.error_alert sample_engine
       (App.step sample_engine filled
          (App.ClickProcess (answers object_error_body)))
     = Form.RenderThrows.
Proof. split; reflexivity. Qed.

(** X7.  The page that posts to the backend, for as long as it is mounted
    (a reply whose stored [error] React refuses as a child makes the render
    throw and ends the page), whatever the user does and the server
    answers: the cells render, between two handlers [loading] is false, so
    the Process button is disabled exactly when the form is incomplete; and
    as long as no file has been chosen, [result] and [error] are null. *)
Theorem page_settles_between_handlers engine st :
  App.reachable engine st ->
  renders st = true
  /\ Form.error_alert engine st <> Form.RenderThrows
  /\ loading st = false
  /\ disabled st = incomplete st
  /\ (inputFile st = None -> result st = VNull /\ error st = VNull).
Proof.
  intros Hr.
  assert (H : loading st = false
              /\ (inputFile st = None -> result st = VNull /\ error st = VNull)).
  { induction Hr as [|st a Hr IH He _]; [split; [reflexivity|now split]|].
    destruct IH as [Hl Hnone]. unfold App.step.
    destruct a as [files|text|fmt|x|reply|url]; simpl App.handler.
    - destruct files as [|f rest]; [split; assumption|].
      split; [exact Hl|discriminate].
    - split; assumption.
    - split; assumption.
    - split; assumption.
    - apply enabled_process in He. destruct He as [_ Hin].
      destruct (proj1 (incomplete_false st) Hin) as [[f Hf] _].
      destruct (api_trace engine reply st Hin) as [v [-> | ->]];
        (split; [reflexivity|]); simpl; rewrite Hf; discriminate.
    - rewrite download_keeps_cells. split; assumption. }
  destruct H as [Hl Hnone].
  assert (Hrender : renders st = true).
  { destruct Hr as [|st a _ _ Hrender]; [reflexivity|exact Hrender]. }
  split; [exact Hrender|]. split; [|split; [exact Hl|split; [|exact Hnone]]].
  - unfold renders in Hrender. unfold Form.error_alert.
    destruct (truthy (error st)).
    + rewrite Hrender. discriminate.
    + destruct (error st); discriminate.
  - unfold disabled. rewrite Hl. reflexivity.
Qed.

Lemma page_settles_between_handlers_witness :
  let st1 := App.step sample_engine initial (App.ChooseFiles [schema_json]) in
  let st2 := App.step sample_engine st1 (App.TypeQuery "find user orders") in
  let st := App.step sample_engine st2
              (App.ClickProcess (answers accepted_body)) in
  loading st = false /\ disabled st = incomplete st.
Proof.
  intros st1 st2 st.
  destruct (page_settles_between_handlers sample_engine st
              (App.reachable_step sample_engine st2
                 (App.ClickProcess (answers accepted_body))
                 (App.reachable_step sample_engine st1
                    (App.TypeQuery "find user orders")
                    (App.reachable_step sample_engine initial
                       (App.ChooseFiles [schema_json])
                       (App.reachable_initial sample_engine)
                       eq_refl eq_refl)
                    eq_refl eq_refl)
                 eq_refl eq_refl))
    as (_ & _ & Hl & Hd & _).
  split; [exact Hl|exact Hd].
Defined.

(** X8.  A submission changes none of the form's inputs: after either
    [processSchema], whatever the guard says and the reply is, the chosen
    file, the query, the output format and the threshold are what they
    were. *)
Theorem submission_keeps_inputs engine reply st m :
  m = Mock.processSchema st \/ m = Api.processSchema engine reply st ->
  inputFile (run st m) = inputFile st
  /\ query (run st m) = query st
  /\ outputFormat (run st m) = outputFormat st
  /\ threshold (run st m) = threshold st.
Proof.
  intros Hm. destruct (incomplete st) eqn:Hin.
  - assert (E : m = ([SetError (VStr validation_message)], Normal tt)).
    { destruct Hm; subst m; [apply mock_refused|apply api_refused];
        exact Hin. }
    rewrite E. repeat split.
  - destruct Hm as [->| ->].
    + rewrite (mock_accepted st Hin). repeat split.
    + destruct (api_trace engine reply st Hin) as [v [-> | ->]];
        repeat split.
Qed.

Lemma submission_keeps_inputs_witness :
  let m := Api.processSchema sample_engine (answers accepted_body) filled in
  inputFile (run filled m) = Some schema_json
  /\ query (run filled m) = "find user orders"
  /\ outputFormat (run filled m) = "json"
  /\ threshold (run filled m) = 0.1%float.
Proof.
  intros m.
  exact (submission_keeps_inputs sample_engine (answers accepted_body)
           filled m (or_intror eq_refl)).
Defined.

(* ================================================================= *)
(** ** Further properties of the download *)

(** X9.  [downloadResult] calls no setter and sends no request: every cell
    of the component is left as it was, whether or not there is a
    result. *)
Theorem download_changes_no_cell engine url st :
  run st (View.downloadResult engine url st) = st
  /\ count is_fetch (trace (View.downloadResult engine url st)) = 0
  /\ ending (View.downloadResult engine url st) = Normal tt.
Proof.
  split; [apply download_keeps_cells|].
  unfold View.downloadResult. destruct (truthy (result st)); split; reflexivity.
Qed.

(** X10.  Whenever the Results card is drawn, the downloaded blob holds
    exactly the text of the card's block, in one part, and its type is
    text/plain whatever the format. *)
Theorem download_holds_what_is_shown engine url st :
  truthy (result st) = true ->
  exists text,
    View.results engine st = View.ResultsCard (Some text)
    /\ filter (fun ev => match ev with NewBlob _ => true | _ => false end)
         (trace (View.downloadResult engine url st))
       = [NewBlob (mkBlob [text] "text/plain")].
Proof.
  intros Ht.
  assert (Hc : exists text, View.content engine st = Some text).
  { unfold View.content. destruct (String.eqb (outputFormat st) "json").
    - pose proof (serialize_defined engine "" (result st) Ht) as Hs.
      unfold JSON_stringify. destruct (serialize engine "" (result st));
        [eauto|congruence].
    - eauto. }
  destruct Hc as [text Hc]. exists text.
  unfold View.results, View.downloadResult. rewrite Ht, Hc.
  split; reflexivity.
Qed.

Lemma download_holds_what_is_shown_witness :
  exists text,
    View.results sample_engine served = View.ResultsCard (Some text)
    /\ filter (fun ev => match ev with NewBlob _ => true | _ => false end)
         (trace (View.downloadResult sample_engine "blob:1" served))
       = [NewBlob (mkBlob [text] "text/plain")].
Proof.
  exact (download_holds_what_is_shown sample_engine "blob:1" served eq_refl).
Defined.

(** X11.  On the page, the file saved by the Download button is named
    processed_schema.json or processed_schema.yaml: the format cell only
    ever holds one of the two values of the Select. *)
Theorem download_name_is_json_or_yaml engine url st :
  App.reachable engine st ->
  App.enabled st (App.ClickDownload url) = true ->
  exists a,
    In (Click a) (trace (View.downloadResult engine url st))
    /\ href a = url
    /\ (download a = "processed_schema.json"
        \/ download a = "processed_schema.yaml").
Proof.
  intros Hr He. simpl in He.
  exists (mkAnchor url ("processed_schema." ++ outputFormat st)).
  unfold View.downloadResult. rewrite He. split; [|split].
  - simpl. tauto.
  - reflexivity.
  - simpl. destruct (app_format engine st Hr) as [-> | ->]; [now left|now right].
Qed.

Lemma download_name_is_json_or_yaml_witness :
  exists a,
    In (Click a) (trace (View.downloadResult sample_engine "blob:1" served))
    /\ href a = "blob:1"
    /\ (download a = "processed_schema.json"
        \/ download a = "processed_schema.yaml").
Proof.
  exact (download_name_is_json_or_yaml sample_engine "blob:1" served
           (answered_reachable accepted_body eq_refl) eq_refl).
Defined.

(* ================================================================= *)
(** ** The query and the guard *)

Lemma strip_white backwards l :
  Forall (fun c => is_ws1 c = true) l -> strip backwards l = [].
Proof.
  induction 1 as [|c l Hc _ IH]; [reflexivity|].
  simpl. rewrite Hc. exact IH.
Qed.

Lemma ws2_high a b :
  is_ws2 a b = true -> (128 <= N_of_ascii a /\ 128 <= N_of_ascii b)%N.
Proof.
  unfold is_ws2. rewrite andb_true_iff, !N.eqb_eq. lia.
Qed.

Lemma ws3_high a b c :
  is_ws3 a b c = true ->
  (128 <= N_of_ascii a /\ 128 <= N_of_ascii b /\ 128 <= N_of_ascii c)%N.
Proof.
  unfold is_ws3. cbv zeta.
  repeat rewrite ?orb_true_iff, ?andb_true_iff, ?N.eqb_eq, ?N.leb_le.
  lia.
Qed.

Lemma visible_spec c :
  visible_ascii c = true <-> (N_of_ascii c < 128)%N /\ is_ws1 c = false.
Proof.
  unfold visible_ascii.
  rewrite andb_true_iff, N.ltb_lt, negb_true_iff. tauto.
Qed.

(** [strip] only ever drops white space, so a visible byte stays. *)
Lemma strip_keeps_visible backwards c :
  visible_ascii c = true ->
  forall n l, length l <= n -> In c l -> In c (strip backwards l).
Proof.
  intros Hv. apply visible_spec in Hv. destruct Hv as [Hlow Hnw].
  induction n as [|n IH]; intros l Hlen Hin.
  - destruct l; [destruct Hin|simpl in Hlen; lia].
  - destruct l as [|a l1]; [destruct Hin|].
    simpl in Hlen. cbn [strip].
    destruct (is_ws1 a) eqn:E1.
    + destruct Hin as [->|Hin]; [congruence|]. apply IH; [lia|exact Hin].
    + destruct l1 as [|b l2]; [exact Hin|]. simpl in Hlen.
      destruct (if backwards then is_ws2 b a else is_ws2 a b) eqn:E2.
      * assert (Hh : (128 <= N_of_ascii a /\ 128 <= N_of_ascii b)%N).
        { destruct backwards; apply ws2_high in E2; lia. }
        destruct Hin as [->|[->|Hin]]; [lia|lia|].
        apply IH; [lia|exact Hin].
      * destruct l2 as [|d l3]; [exact Hin|]. simpl in Hlen.
        destruct (if backwards then is_ws3 d b a else is_ws3 a b d) eqn:E3;
          [|exact Hin].
        assert (Hh : (128 <= N_of_ascii a /\ 128 <= N_of_ascii b
                      /\ 128 <= N_of_ascii d)%N).
        { destruct backwards; apply ws3_high in E3; lia. }
        destruct Hin as [->|[->|[->|Hin]]]; [lia|lia|lia|].
        apply IH; [lia|exact Hin].
Qed.

Lemma trim_keeps_visible c q :
  visible_ascii c = true ->
  In c (list_ascii_of_string q) -> In c (list_ascii_of_string (trim q)).
Proof.
  intros Hv Hin. unfold trim. rewrite list_ascii_of_string_of_list_ascii.
  apply in_rev. rewrite rev_involutive.
  apply (strip_keeps_visible true c Hv _ _ (le_n _)).
  apply -> in_rev.
  apply (strip_keeps_visible false c Hv _ _ (le_n _)). exact Hin.
Qed.

(** X12.  A query made only of spaces, tabs and line breaks is blank: its
    trimmed text is empty, so whatever file is chosen the form is
    incomplete, the Process button is disabled, and both [processSchema]
    refuse it with the validation message and send nothing. *)
Theorem white_query_is_refused engine reply st :
  Forall (fun c => is_ws1 c = true) (list_ascii_of_string (query st)) ->
  trim (query st) = ""
  /\ disabled st = true
  /\ Mock.processSchema st
     = ([SetError (VStr "Please provide both a schema file and a query")],
        Normal tt)
  /\ Api.processSchema engine reply st
     = ([SetError (VStr "Please provide both a schema file and a query")],
        Normal tt).
Proof.
  intros Hw.
  assert (Ht : trim (query st) = "").
  { unfold trim. rewrite (strip_white false _ Hw). reflexivity. }
  assert (Hin : incomplete st = true).
  { apply incomplete_true. now right. }
  split; [exact Ht|]. split; [|split].
  - unfold disabled. rewrite Hin. apply orb_true_r.
  - exact (mock_refused st Hin).
  - exact (api_refused engine reply st Hin).
Qed.

Lemma white_query_is_refused_witness :
  let st := mkState (Some schema_json) ("  " ++ LF ++ " ") "json" 0.1%float
                    VNull VNull false in
  trim (query st) = "" /\ disabled st = true.
Proof.
  intros st.
  destruct (white_query_is_refused sample_engine (answers accepted_body) st)
    as (Ht & Hd & _).
  - repeat constructor.
  - split; [exact Ht|exact Hd].
Defined.

(** X13.  Trimming never removes a visible ASCII character.  So with a
    file chosen, a query that holds at least one passes the guard: the
    button is enabled when nothing is loading, and [processSchema] starts
    the submission instead of showing the validation message. *)
Theorem visible_query_is_accepted engine reply st f c :
  inputFile st = Some f ->
  visible_ascii c = true ->
  In c (list_ascii_of_string (query st)) ->
  In c (list_ascii_of_string (trim (query st)))
  /\ incomplete st = false
  /\ disabled st = loading st
  /\ hd_error (trace (Mock.processSchema st)) = Some (SetLoading true)
  /\ hd_error (trace (Api.processSchema engine reply st))
     = Some (SetLoading true).
Proof.
  intros Hf Hv Hin.
  pose proof (trim_keeps_visible c (query st) Hv Hin) as Hk.
  assert (Hi : incomplete st = false).
  { apply incomplete_false. split; [eauto|].
    intros E. rewrite E in Hk. destruct Hk. }
  split; [exact Hk|]. split; [exact Hi|]. split; [|split].
  - unfold disabled. rewrite Hi. apply orb_false_r.
  - rewrite (mock_accepted st Hi). reflexivity.
  - destruct (api_trace engine reply st Hi) as [v [-> | ->]]; reflexivity.
Qed.

Lemma visible_query_is_accepted_witness :
  let st := mkState (Some schema_json) "  ?  " "json" 0.1%float
                    VNull VNull false in
  incomplete st = false /\ disabled st = loading st.
Proof.
  intros st.
  destruct (visible_query_is_accepted sample_engine (answers accepted_body)
              st schema_json "?"%char eq_refl eq_refl
              (or_intror (or_intror (or_introl eq_refl))))
    as (_ & Hi & Hd & _).
  split; [exact Hi|exact Hd].
Defined.
